(** * The Alliage documentation site: homepage components

    A shallow embedding of the executable code of the site: the feature
    section ([src/components/HomepageFeatures], a module that builds the
    constant [FeatureList] and exports the components [Feature] and
    [HomepageFeatures]) and the landing page ([src/pages/index.tsx], with
    [HomepageHeader] and [Home]).

    A function component is a JavaScript function from props to a React
    element tree.  It runs against the module-level bindings of its file
    (here the array [FeatureList], which JavaScript would let any code
    mutate) and it may throw; so component functions are embedded in a small
    state-and-exception monad, and the properties "does not throw" and
    "leaves the bindings alone" are theorems rather than artefacts of the
    encoding. *)

From Stdlib Require Import String List Arith Lia Bool.
Import ListNotations.
Open Scope string_scope.
Open Scope list_scope.

(* ================================================================== *)
(** ** JavaScript effects: exceptions and module-level state *)

Module JS.

(** What a [throw] carries.  The only throwing primitive the site's code
    calls is [require]. *)
Inductive Error : Type :=
| ModuleNotFound (request : string).

Inductive Outcome (A : Type) : Type :=
| Ok (a : A)
| Throw (e : Error).
Arguments Ok {A} a.
Arguments Throw {A} e.

Definition is_ok {A} (o : Outcome A) : bool :=
  match o with Ok _ => true | Throw _ => false end.

(** Evaluation of top-level module code: it may throw, there is no state
    yet. *)
Definition obind {A B} (o : Outcome A) (k : A -> Outcome B) : Outcome B :=
  match o with
  | Ok a => k a
  | Throw e => Throw e
  end.

Section WithState.
Variable S : Type.

(** A computation over a state [S]: an outcome and the state it leaves.
    As in JavaScript, a throw keeps the writes done before it. *)
Definition Eff (A : Type) : Type := S -> Outcome A * S.

Definition ret {A} (a : A) : Eff A := fun s => (Ok a, s).

Definition bind {A B} (m : Eff A) (k : A -> Eff B) : Eff B :=
  fun s =>
    match m s with
    | (Ok a, s') => k a s'
    | (Throw e, s') => (Throw e, s')
    end.

Definition gets {A} (proj : S -> A) : Eff A := fun s => (Ok (proj s), s).

Definition throw {A} (e : Error) : Eff A := fun s => (Throw e, s).

(** [Array.prototype.map]: the callback receives the element and its
    index, left to right from index 0; the array is not modified. *)
Fixpoint Array_map_from {A B} (callback : A -> nat -> Eff B)
         (idx : nat) (arr : list A) : Eff (list B) :=
  match arr with
  | [] => ret []
  | x :: rest =>
      bind (callback x idx) (fun y =>
      bind (Array_map_from callback (Datatypes.S idx) rest) (fun ys =>
      ret (y :: ys)))
  end.

Definition Array_map {A B} (callback : A -> nat -> Eff B)
           (arr : list A) : Eff (list B) :=
  Array_map_from callback 0 arr.
End WithState.

Arguments ret {S A} a.
Arguments bind {S A B} m k.
Arguments gets {S A} proj.
Arguments throw {S A} e.
Arguments Array_map_from {S A B} callback idx arr.
Arguments Array_map {S A B} callback arr.

End JS.

Import JS.

Declare Scope js_scope.
Delimit Scope js_scope with js.
Notation "x <- m ;; k" := (bind m (fun x => k))
  (at level 61, m at next level, right associativity) : js_scope.
Notation "x <-? o ;; k" := (obind o (fun x => k))
  (at level 61, o at next level, right associativity) : js_scope.

(* ================================================================== *)
(** ** React element trees *)

Module React.

(** The values the site passes as plain props. *)
Inductive PropValue : Type :=
| VString (s : string)
| VUndefined
| VStyle (declarations : list (string * string))
| VSources (light dark : string).

Definition Props : Type := list (string * PropValue).

(** Components of the Docusaurus theme that the site's markup uses.  They
    are imported, not defined here; their elements stay opaque. *)
Inductive ThemeComponent : Type :=
| Heading        (* @theme/Heading *)
| Link           (* @docusaurus/Link *)
| Layout         (* @theme/Layout *)
| ThemedImage.   (* @theme/ThemedImage *)

(** The component an SVG module exports as [default]: it is identified by
    the asset file it was generated from. *)
Record SvgComponent : Type := { asset : string }.

(** A [ReactNode]: text, a fragment [<>...</>], an element of a host tag,
    of a theme component, of an SVG component, or of one of the site's own
    components.  [<Feature key={idx} {...props} />] keeps its key and the
    three props of a [FeatureItem]. *)
#[warnings="-register-all"]
Inductive ReactNode : Type :=
| Text (s : string)
| Fragment (children : list ReactNode)
| HostElement (tag : string) (props : Props) (children : list ReactNode)
| ThemeElement (type : ThemeComponent) (props : Props)
               (children : list ReactNode)
| SvgElement (type : SvgComponent) (props : Props)
| FeatureElement (key : option nat) (title : string) (Svg : SvgComponent)
                 (description : ReactNode)
| HomepageHeaderElement
| HomepageFeaturesElement.

Definition children (n : ReactNode) : list ReactNode :=
  match n with
  | Fragment ch | HostElement _ _ ch | ThemeElement _ _ ch => ch
  | _ => []
  end.

Definition key (n : ReactNode) : option nat :=
  match n with
  | FeatureElement k _ _ _ => k
  | _ => None
  end.

Fixpoint lookup (name : string) (ps : Props) : PropValue :=
  match ps with
  | [] => VUndefined
  | (n, v) :: rest => if String.eqb n name then v else lookup name rest
  end.

Definition prop (name : string) (n : ReactNode) : PropValue :=
  match n with
  | HostElement _ ps _ | ThemeElement _ ps _ | SvgElement _ ps =>
      lookup name ps
  | _ => VUndefined
  end.

Definition className (n : ReactNode) : PropValue := prop "className" n.

Definition is_host (tag : string) (n : ReactNode) : bool :=
  match n with
  | HostElement t _ _ => String.eqb t tag
  | _ => false
  end.

Definition has_class (c : string) (n : ReactNode) : bool :=
  match className n with
  | VString s => String.eqb s c
  | _ => false
  end.

(** Every node of a tree in document order (a node before its content,
    siblings left to right).  The description of a [Feature] element is
    a prop, and is listed as its content. *)
Fixpoint document_order (n : ReactNode) : list ReactNode :=
  n :: match n with
       | Fragment ch | HostElement _ _ ch | ThemeElement _ _ ch =>
           flat_map document_order ch
       | FeatureElement _ _ _ d => document_order d
       | _ => []
       end.

(** [a] comes before [b] in the document order of [n]. *)
Definition precedes (n a b : ReactNode) : Prop :=
  exists before between after,
    document_order n = before ++ a :: between ++ b :: after.

End React.

Import React.

(* ================================================================== *)
(** ** Imported helpers *)

(** A CSS module ([import styles from './styles.module.css']): a lookup from
    the class names of the stylesheet to generated names, [undefined] for a
    name the stylesheet does not define. *)
Definition CssModule : Type := string -> option string.

(** A class prop whose value is a CSS-module lookup. *)
Definition classValue (v : option string) : PropValue :=
  match v with
  | Some s => VString s
  | None => VUndefined
  end.

(** [clsx] on the arguments the site passes, strings and [undefined]: a
    falsy argument ([undefined], the empty string) is skipped, the others
    are appended with one space between them. *)
Fixpoint clsx_from (str : string) (args : list (option string)) : string :=
  match args with
  | [] => str
  | Some x :: rest =>
      if String.eqb x "" then clsx_from str rest
      else clsx_from
             ((if String.eqb str "" then str else str ++ " ") ++ x)%string
             rest
  | None :: rest => clsx_from str rest
  end.

Definition clsx (args : list (option string)) : string := clsx_from "" args.

(* ================================================================== *)
(** ** src/components/HomepageFeatures *)

Module Features.

Record FeatureItem : Type := {
  title : string;
  Svg : SvgComponent;
  description : ReactNode
}.

(** The module-level bindings of the file: the array [FeatureList].
    [const] fixes the binding, not the contents of the array. *)
Record Bindings : Type := { FeatureList : list FeatureItem }.

(** A render runs against the bindings and may throw. *)
Definition Render : Type -> Type := Eff Bindings.

(** What [require] returns for an SVG file. *)
Record SvgModule : Type := { default : SvgComponent }.

(** The three icon files the module requires. *)
Definition icon_requests : list string :=
  [ "@site/static/img/undraw_road-to-knowledge_f9zn.svg";
    "@site/static/img/undraw_scientist_5td0.svg";
    "@site/static/img/undraw_active-options_et7o.svg" ].

Section Module_.
(** [require] is the bundler's: it returns the module of a request or
    throws when the request does not resolve. *)
Variable require : string -> Outcome SvgModule.
(** [./styles.module.css] *)
Variable styles : CssModule.

Local Open Scope js_scope.

(** The array literal of [const FeatureList]: its elements are evaluated
    in order, each with its [require]; nothing catches a throw. *)
Definition FeatureList_literal : Outcome (list FeatureItem) :=
  m1 <-? require "@site/static/img/undraw_road-to-knowledge_f9zn.svg" ;;
  m2 <-? require "@site/static/img/undraw_scientist_5td0.svg" ;;
  m3 <-? require "@site/static/img/undraw_active-options_et7o.svg" ;;
  Ok [ {| title := "Accessible by design";
          Svg := default m1;
          description := Fragment [Text
            "Alliage doesn't drown you in complex patterns or overwhelming concepts. It provides all the tools to follow best practices like SOLID principles and clean architecture, but makes them feel natural and effortless."] |};
       {| title := "Testing-driven from the ground up";
          Svg := default m2;
          description := Fragment [Text
            "Testing isn't an afterthought—it's built into Alliage's DNA. Dependency injection makes each piece of code independent and easily testable, while our sandbox environment lets you run integration tests in complete isolation."] |};
       {| title := "Configuration that just works";
          Svg := default m3;
          description := Fragment [Text
            "Keep your configuration outside your code where it belongs, while making it seamlessly permeable to different environments. No more hardcoded values or configuration chaos."] |} ].

(** Evaluating the module: the bindings it leaves, or the throw. *)
Definition evaluate_module : Outcome Bindings :=
  arr <-? FeatureList_literal ;;
  Ok {| FeatureList := arr |}.

Definition Feature (props : FeatureItem) : Render ReactNode :=
  ret
    (HostElement "div" [("className", VString (clsx [Some "col col--4"]))]
       [ HostElement "div" [("className", VString "text--center")]
           [ SvgElement (Svg props)
               [("className", classValue (styles "featureSvg"));
                ("role", VString "img")] ];
         HostElement "div"
           [("className", VString "text--center padding-horiz--md")]
           [ ThemeElement Heading [("as", VString "h3")]
               [Text (title props)];
             HostElement "p" [] [description props] ] ]).

Definition HomepageFeatures : Render ReactNode :=
  arr <- gets FeatureList ;;
  cells <- Array_map
             (fun props idx =>
                ret (FeatureElement (Some idx) (title props) (Svg props)
                       (description props)))
             arr ;;
  ret
    (HostElement "section" [("className", classValue (styles "features"))]
       [ HostElement "div" [("className", VString "container")]
           [ HostElement "div" [("className", VString "row")] cells ] ]).
End Module_.

(** The props a [Feature] element carries. *)
Definition feature_props (e : ReactNode) : option FeatureItem :=
  match e with
  | FeatureElement _ t s d =>
      Some {| title := t; Svg := s; description := d |}
  | _ => None
  end.

(** The cells of a feature section: [section > .container > .row > *]. *)
Definition in_class (c : string) (ns : list ReactNode) : list ReactNode :=
  filter (has_class c) ns.

Definition containers (section : ReactNode) : list ReactNode :=
  in_class "container" (children section).

Definition rows (section : ReactNode) : list ReactNode :=
  in_class "row" (flat_map children (containers section)).

Definition cells (section : ReactNode) : list ReactNode :=
  flat_map children (rows section).

End Features.

Import Features.

(* ================================================================== *)
(** ** src/pages/index.tsx *)

Module Index.

Record SiteConfig : Type := { title : string; tagline : string }.

(** What [useDocusaurusContext()] returns. *)
Record DocusaurusContext : Type := { siteConfig : SiteConfig }.

Section Module_.
(** [./index.module.css] *)
Variable styles : CssModule.
Variable useDocusaurusContext : DocusaurusContext.
Variable useBaseUrl : string -> string.

Definition HomepageHeader : Render ReactNode :=
  let siteConfig := siteConfig useDocusaurusContext in
  ret
    (HostElement "header"
       [("className",
         VString (clsx [Some "hero hero--primary"; styles "heroBanner"]))]
       [ HostElement "div" [("className", VString "container")]
           [ ThemeElement ThemedImage
               [("alt", VString "Alliage logo");
                ("sources",
                 VSources (useBaseUrl "/img/alliage-logo-light.svg")
                          (useBaseUrl "/img/alliage-logo-dark.svg"));
                ("width", VString "500")]
               [];
             HostElement "p"
               [("className", VString "hero__subtitle");
                ("style", VStyle [("marginTop", "2rem");
                                  ("marginBottom", "2rem")])]
               [Text (tagline siteConfig)];
             HostElement "div" [("className", classValue (styles "buttons"))]
               [ ThemeElement Link
                   [("className",
                     VString "button button--secondary button--lg");
                    ("to", VString "/docs/intro")]
                   [Text "Get started"] ] ] ]).

Definition Home : Render ReactNode :=
  let siteConfig := siteConfig useDocusaurusContext in
  ret
    (ThemeElement Layout
       [("title", VString (title siteConfig));
        ("description",
         VString "Build applications with proper dependency injection, clean architecture, and testing built in from the start")]
       [ HomepageHeaderElement;
         HostElement "main" [] [HomepageFeaturesElement] ]).
End Module_.

End Index.

Import Index.

(* ================================================================== *)
(** ** The site at work: the bundler, React calling the components *)

Module Site.

(** A bundler over a set of files: a request resolves when its file is
    there, to the component generated from it. *)
Definition require_from (files : list string) (request : string)
  : Outcome SvgModule :=
  if existsb (String.eqb request) files
  then Ok {| default := {| asset := request |} |}
  else Throw (ModuleNotFound request).

(** A call of one of the site's component functions. *)
Inductive Call : Type :=
| CallHome
| CallHomepageHeader
| CallHomepageFeatures
| CallFeature (props : FeatureItem).

Section Site_.
Variable require : string -> Outcome SvgModule.
(** [styles] of the feature section and of the page. *)
Variable styles : CssModule.
Variable pageStyles : CssModule.
Variable useDocusaurusContext : DocusaurusContext.
Variable useBaseUrl : string -> string.

Local Open Scope js_scope.

Definition call (c : Call) : Render ReactNode :=
  match c with
  | CallHome => Home useDocusaurusContext
  | CallHomepageHeader =>
      HomepageHeader pageStyles useDocusaurusContext useBaseUrl
  | CallHomepageFeatures => HomepageFeatures styles
  | CallFeature props => Feature styles props
  end.

(** React renders an element of a function component by calling the
    function with the props of the element; other nodes are left as
    they are. *)
Definition renderElement (e : ReactNode) : Render ReactNode :=
  match e with
  | FeatureElement _ t s d =>
      call (CallFeature
              {| Features.title := t; Svg := s; description := d |})
  | HomepageHeaderElement => call CallHomepageHeader
  | HomepageFeaturesElement => call CallHomepageFeatures
  | other => ret other
  end.

(** Any sequence of renders: the outcomes, and the bindings left. *)
Fixpoint run (cs : list Call) (b : Bindings)
  : list (Outcome ReactNode) * Bindings :=
  match cs with
  | [] => ([], b)
  | c :: rest =>
      let (o, b') := call c b in
      let (os, b'') := run rest b' in
      (o :: os, b'')
  end.

(** Rendering the feature section: the section, and its cells rendered
    in order. *)
Definition renderFeatureSection : Render (ReactNode * list ReactNode) :=
  section <- HomepageFeatures styles ;;
  rendered <- Array_map (fun e _ => renderElement e) (cells section) ;;
  ret (section, rendered).

(** What this file contributes to a build of the page: the module is
    evaluated, then the section is rendered.  The bundler's own work
    (resolving the requests of every file ahead of time, the other imports,
    the rest of the page) is not part of it. *)
Definition build : Outcome (ReactNode * list ReactNode) :=
  b <-? evaluate_module require ;;
  fst (renderFeatureSection b).
End Site_.

(** Concrete imports, for running the site: a stylesheet that defines
    every class the two files look up, one that defines none, and a site
    configuration. *)
Definition hashedStyles : CssModule := fun name => Some (name ++ "_x1Yz")%string.
Definition noStyles : CssModule := fun _ => None.
(** A stylesheet that defines the two classes of the feature section and
    nothing else. *)
Definition sectionStyles : CssModule :=
  fun name =>
    if (String.eqb name "features" || String.eqb name "featureSvg")%bool
    then hashedStyles name
    else None.
Definition sampleContext : DocusaurusContext :=
  {| siteConfig := {| Index.title := "Alliage";
                      tagline := "A framework for Node.js" |} |}.
(** The bindings the module leaves when every icon file is there. *)
Definition siteBindings : Bindings :=
  match evaluate_module (require_from icon_requests) with
  | Ok b => b
  | Throw _ => {| FeatureList := [] |}
  end.

Definition baseUrl (path : string) : string := ("/base" ++ path)%string.

End Site.

Import Site.

(* ================================================================== *)
(** ** The markup as plain functions of the data *)

(** The elements [FeatureList.map] yields from index [idx] on. *)
Fixpoint feature_elements_from (idx : nat) (items : list FeatureItem)
  : list ReactNode :=
  match items with
  | [] => []
  | props :: rest =>
      FeatureElement (Some idx) (Features.title props) (Svg props)
                     (description props)
      :: feature_elements_from (S idx) rest
  end.

Definition iconElement (styles : CssModule) (props : FeatureItem) : ReactNode :=
  SvgElement (Svg props)
    [("className", classValue (styles "featureSvg")); ("role", VString "img")].

Definition titleElement (props : FeatureItem) : ReactNode :=
  ThemeElement Heading [("as", VString "h3")] [Text (Features.title props)].

Definition descriptionElement (props : FeatureItem) : ReactNode :=
  HostElement "p" [] [description props].

Definition iconBlock (styles : CssModule) (props : FeatureItem) : ReactNode :=
  HostElement "div" [("className", VString "text--center")]
    [iconElement styles props].

Definition textBlock (props : FeatureItem) : ReactNode :=
  HostElement "div" [("className", VString "text--center padding-horiz--md")]
    [titleElement props; descriptionElement props].

Definition cellOf (styles : CssModule) (props : FeatureItem) : ReactNode :=
  HostElement "div" [("className", VString "col col--4")]
    [iconBlock styles props; textBlock props].

Definition rowOf (items : list FeatureItem) : ReactNode :=
  HostElement "div" [("className", VString "row")]
    (feature_elements_from 0 items).

Definition sectionOf (styles : CssModule) (items : list FeatureItem)
  : ReactNode :=
  HostElement "section" [("className", classValue (styles "features"))]
    [HostElement "div" [("className", VString "container")] [rowOf items]].

(* ================================================================== *)
(** ** Running the components *)

Lemma bind_run {S A B : Type} (m : Eff S A) (k : A -> Eff S B)
      (s s' : S) (a : A) :
  m s = (Ok a, s') -> bind m k s = k a s'.
Proof. intro H. unfold bind. now rewrite H. Qed.

Lemma bind_ret {S A B : Type} (a : A) (k : A -> Eff S B) (s : S) :
  bind (ret a) k s = k a s.
Proof. reflexivity. Qed.

Lemma bind_gets {S A B : Type} (proj : S -> A) (k : A -> Eff S B) (s : S) :
  bind (gets proj) k s = k (proj s) s.
Proof. reflexivity. Qed.

Lemma Feature_run (styles : CssModule) (props : FeatureItem) (b : Bindings) :
  Feature styles props b = (Ok (cellOf styles props), b).
Proof. reflexivity. Qed.

Lemma map_callback_run (idx : nat) (items : list FeatureItem) (b : Bindings) :
  Array_map_from
    (fun props i =>
       ret (FeatureElement (Some i) (Features.title props) (Svg props)
              (description props)))
    idx items b
  = (Ok (feature_elements_from idx items), b).
Proof.
  revert idx; induction items as [|props rest IH]; intro idx.
  - reflexivity.
  - simpl. rewrite bind_ret.
    now rewrite (bind_run _ _ b b _ (IH (S idx))).
Qed.

Lemma HomepageFeatures_run (styles : CssModule) (b : Bindings) :
  HomepageFeatures styles b = (Ok (sectionOf styles (FeatureList b)), b).
Proof.
  unfold HomepageFeatures, Array_map.
  rewrite bind_gets.
  now rewrite (bind_run _ _ b b _ (map_callback_run 0 _ b)).
Qed.

Lemma HomepageHeader_preserves (styles : CssModule) (ctx : DocusaurusContext)
      (useBaseUrl : string -> string) (b : Bindings) :
  exists header, HomepageHeader styles ctx useBaseUrl b = (Ok header, b).
Proof. eexists; reflexivity. Qed.

Lemma Home_preserves (ctx : DocusaurusContext) (b : Bindings) :
  exists page, Home ctx b = (Ok page, b).
Proof. eexists; reflexivity. Qed.

Section Calls.
Variables styles pageStyles : CssModule.
Variable ctx : DocusaurusContext.
Variable useBaseUrl : string -> string.

Lemma call_ok (c : Call) (b : Bindings) :
  exists markup, call styles pageStyles ctx useBaseUrl c b = (Ok markup, b).
Proof.
  destruct c; simpl.
  - apply Home_preserves.
  - apply HomepageHeader_preserves.
  - rewrite HomepageFeatures_run. eauto.
  - rewrite Feature_run. eauto.
Qed.

Lemma run_bindings (cs : list Call) (b : Bindings) :
  snd (run styles pageStyles ctx useBaseUrl cs b) = b.
Proof.
  revert b; induction cs as [|c rest IH]; intro b; [reflexivity|].
  simpl. destruct (call_ok c b) as [m Hm]. rewrite Hm.
  specialize (IH b).
  destruct (run styles pageStyles ctx useBaseUrl rest b) as [os b''].
  exact IH.
Qed.

Lemma run_outcomes_ok (cs : list Call) (b : Bindings) :
  forallb is_ok (fst (run styles pageStyles ctx useBaseUrl cs b)) = true.
Proof.
  revert b; induction cs as [|c rest IH]; intro b; [reflexivity|].
  simpl. destruct (call_ok c b) as [m Hm]. rewrite Hm.
  specialize (IH b).
  destruct (run styles pageStyles ctx useBaseUrl rest b) as [os b''].
  simpl in *. exact IH.
Qed.

Lemma render_cells_run (idx k : nat) (items : list FeatureItem)
      (b : Bindings) :
  Array_map_from
    (fun e (_ : nat) => renderElement styles pageStyles ctx useBaseUrl e)
    idx (feature_elements_from k items) b
  = (Ok (map (cellOf styles) items), b).
Proof.
  revert idx k; induction items as [|props rest IH]; intros idx k.
  - reflexivity.
  - simpl feature_elements_from. cbn [Array_map_from].
    rewrite (bind_run _ _ b b (cellOf styles props));
      [| destruct props; reflexivity].
    now rewrite (bind_run _ _ b b _ (IH (S idx) (S k))).
Qed.
End Calls.

Lemma cells_sectionOf (styles : CssModule) (items : list FeatureItem) :
  cells (sectionOf styles items) = feature_elements_from 0 items.
Proof.
  unfold cells, rows, containers, sectionOf, rowOf. simpl.
  apply app_nil_r.
Qed.

Lemma rows_sectionOf (styles : CssModule) (items : list FeatureItem) :
  rows (sectionOf styles items) = [rowOf items].
Proof. reflexivity. Qed.

Lemma renderFeatureSection_run (styles pageStyles : CssModule)
      (ctx : DocusaurusContext) (useBaseUrl : string -> string)
      (b : Bindings) :
  renderFeatureSection styles pageStyles ctx useBaseUrl b
  = (Ok (sectionOf styles (FeatureList b),
         map (cellOf styles) (FeatureList b)), b).
Proof.
  unfold renderFeatureSection, Array_map.
  rewrite (bind_run _ _ b b _ (HomepageFeatures_run styles b)).
  rewrite cells_sectionOf.
  now rewrite (bind_run _ _ b b _
                 (render_cells_run styles pageStyles ctx useBaseUrl 0 0 _ b)).
Qed.

Lemma feature_props_elements (idx : nat) (items : list FeatureItem) :
  map feature_props (feature_elements_from idx items) = map Some items.
Proof.
  revert idx; induction items as [|[t s d] rest IH]; intro idx; simpl.
  - reflexivity.
  - now rewrite IH.
Qed.

Lemma key_elements (idx : nat) (items : list FeatureItem) :
  map key (feature_elements_from idx items)
  = map Some (seq idx (length items)).
Proof.
  revert idx; induction items as [|props rest IH]; intro idx; simpl.
  - reflexivity.
  - now rewrite IH.
Qed.

Lemma length_elements (idx : nat) (items : list FeatureItem) :
  length (feature_elements_from idx items) = length items.
Proof.
  revert idx; induction items as [|props rest IH]; intro idx; simpl;
    [reflexivity | now rewrite IH].
Qed.

Lemma document_order_cell (styles : CssModule) (props : FeatureItem) :
  document_order (cellOf styles props)
  = [ cellOf styles props; iconBlock styles props; iconElement styles props;
      textBlock props; titleElement props; Text (Features.title props);
      descriptionElement props ]
    ++ document_order (description props).
Proof.
  unfold cellOf, iconBlock, textBlock, titleElement, descriptionElement,
    iconElement.
  cbn [document_order flat_map app].
  now rewrite !app_nil_r.
Qed.

Lemma NoDup_map_Some_seq (start len : nat) :
  NoDup (map (@Some nat) (seq start len)).
Proof.
  revert start; induction len as [|len IH]; intro start; simpl.
  - constructor.
  - constructor; [| apply IH].
    rewrite in_map_iff. intros [x [Hx Hin]].
    injection Hx as ->. apply in_seq in Hin. lia.
Qed.

(** Sanity runs on the site's own data. *)
Example build_runs :
  match build (require_from icon_requests) hashedStyles hashedStyles
              sampleContext baseUrl with
  | Ok (section, rendered) =>
      (length (cells section), length rendered,
       map key (cells section),
       map className rendered,
       className section)
      = (3, 3, [Some 0; Some 1; Some 2],
         [VString "col col--4"; VString "col col--4"; VString "col col--4"],
         VString "features_x1Yz")
  | Throw _ => False
  end.
Proof. vm_compute. reflexivity. Qed.

Example build_without_scientist_icon :
  build (require_from
           [ "@site/static/img/undraw_road-to-knowledge_f9zn.svg";
             "@site/static/img/undraw_active-options_et7o.svg" ])
        hashedStyles hashedStyles sampleContext baseUrl
  = Throw (ModuleNotFound "@site/static/img/undraw_scientist_5td0.svg").
Proof. vm_compute. reflexivity. Qed.

Example header_class :
  (let (o, _) := HomepageHeader noStyles sampleContext baseUrl siteBindings in
   match o with Ok header => className header | Throw _ => VUndefined end)
  = VString "hero hero--primary"
  /\ (let (o, _) :=
         HomepageHeader hashedStyles sampleContext baseUrl siteBindings in
       match o with Ok header => className header | Throw _ => VUndefined end)
     = VString "hero hero--primary heroBanner_x1Yz".
Proof. split; reflexivity. Qed.

Example clsx_examples :
  clsx [Some "col col--4"] = "col col--4"
  /\ clsx [Some "hero hero--primary"; Some "heroBanner_qdFl"]
     = "hero hero--primary heroBanner_qdFl"
  /\ clsx [Some "hero hero--primary"; None] = "hero hero--primary".
Proof. repeat split. Qed.

(* ================================================================== *)
(** ** The feature section *)

(** C1. For every list of feature items, rendering the feature section
    succeeds and yields one cell per item, in the order of the list: the
    row holds exactly as many [Feature] elements as there are items, the
    i-th element carries the props of the i-th item, and the i-th rendered
    cell is what [Feature] returns for the i-th item. *)
Theorem HomepageFeatures_one_cell_per_item_in_order :
  forall (styles pageStyles : CssModule) (ctx : DocusaurusContext)
         (useBaseUrl : string -> string) (items : list FeatureItem),
    let b := {| FeatureList := items |} in
    exists section rendered,
      renderFeatureSection styles pageStyles ctx useBaseUrl b
      = (Ok (section, rendered), b)
      /\ HomepageFeatures styles b = (Ok section, b)
      /\ length (cells section) = length items
      /\ map feature_props (cells section) = map Some items
      /\ length rendered = length items
      /\ Forall2 (fun props cell =>
                    forall b', Feature styles props b' = (Ok cell, b'))
                 items rendered.
Proof.
  intros styles pageStyles ctx useBaseUrl items b.
  exists (sectionOf styles items), (map (cellOf styles) items).
  split; [apply renderFeatureSection_run|].
  split; [apply HomepageFeatures_run|].
  rewrite cells_sectionOf, length_elements, feature_props_elements,
    length_map.
  repeat split.
  clear b. induction items as [|props rest IH]; simpl; constructor.
  - intro b'. apply Feature_run.
  - exact IH.
Qed.

(** C2. For every feature item, the cell [Feature] returns stacks two
    blocks: the first holds the icon, the second the title heading followed
    by the paragraph of the description.  In document order the icon comes
    before the title, and the title before the description. *)
Theorem Feature_icon_above_title_above_description :
  forall (styles : CssModule) (props : FeatureItem) (b : Bindings),
    exists cell icons texts,
      Feature styles props b = (Ok cell, b)
      /\ children cell = [icons; texts]
      /\ is_host "div" icons = true /\ is_host "div" texts = true
      /\ children icons = [iconElement styles props]
      /\ children texts = [titleElement props; descriptionElement props]
      /\ children (titleElement props) = [Text (Features.title props)]
      /\ children (descriptionElement props) = [description props]
      /\ precedes cell (iconElement styles props) (titleElement props)
      /\ precedes cell (titleElement props) (descriptionElement props)
      /\ precedes cell (Text (Features.title props)) (description props).
Proof.
  intros styles props b.
  exists (cellOf styles props), (iconBlock styles props), (textBlock props).
  split; [apply Feature_run|].
  repeat (split; [reflexivity|]).
  unfold precedes. rewrite document_order_cell.
  repeat split.
  - exists [cellOf styles props; iconBlock styles props], [textBlock props].
    eexists. reflexivity.
  - exists [cellOf styles props; iconBlock styles props;
            iconElement styles props; textBlock props],
           [Text (Features.title props)].
    eexists. reflexivity.
  - exists [cellOf styles props; iconBlock styles props;
            iconElement styles props; textBlock props; titleElement props],
           [descriptionElement props].
    destruct (document_order (description props)) as [|d rest] eqn:E.
    + destruct (description props); discriminate E.
    + assert (d = description props) as ->
        by (destruct (description props); simpl in E; congruence).
      exists rest. reflexivity.
Qed.

(** C3. For every list of feature items, the section holds exactly one
    container with exactly one row, a [div] of class [row]; the children of
    that row are the cells, one [Feature] element per item with the props of
    the items in list order; and the cell rendered for each item is what
    [Feature] returns for it, a [div] that carries the three-column grid
    class [col col--4]. *)
Theorem feature_section_three_column_layout :
  forall (styles pageStyles : CssModule) (ctx : DocusaurusContext)
         (useBaseUrl : string -> string) (items : list FeatureItem),
    let b := {| FeatureList := items |} in
    exists section container row rendered,
      renderFeatureSection styles pageStyles ctx useBaseUrl b
      = (Ok (section, rendered), b)
      /\ HomepageFeatures styles b = (Ok section, b)
      /\ children section = [container]
      /\ children container = [row]
      /\ rows section = [row]
      /\ is_host "div" row = true
      /\ className row = VString "row"
      /\ children row = cells section
      /\ length (children row) = length items
      /\ map feature_props (children row) = map Some items
      /\ length rendered = length items
      /\ Forall2 (fun props cell =>
                    (forall b', Feature styles props b' = (Ok cell, b'))
                    /\ is_host "div" cell = true
                    /\ className cell = VString "col col--4")
                 items rendered
      /\ Forall (fun cell => className cell = VString "col col--4") rendered
      /\ (forall props b',
            exists cell, Feature styles props b' = (Ok cell, b')
                         /\ is_host "div" cell = true
                         /\ className cell = VString "col col--4").
Proof.
  intros styles pageStyles ctx useBaseUrl items b.
  exists (sectionOf styles items),
         (HostElement "div" [("className", VString "container")]
                      [rowOf items]),
         (rowOf items), (map (cellOf styles) items).
  split; [apply renderFeatureSection_run|].
  split; [apply HomepageFeatures_run|].
  rewrite cells_sectionOf.
  repeat (split; [reflexivity|]).
  cbn [rowOf children].
  rewrite length_elements, feature_props_elements, length_map.
  repeat (split; [reflexivity|]).
  split; [|split].
  - clear b. induction items as [|props rest IH]; simpl; constructor.
    + repeat split.
    + exact IH.
  - apply Forall_forall. intros cell Hin.
    apply in_map_iff in Hin as [props [<- _]]. reflexivity.
  - intros props b'. exists (cellOf styles props).
    repeat split.
Qed.

(** C9. For every list of N feature items, the keys [HomepageFeatures]
    gives to its cells are the indices 0, 1, ..., N-1 in order; so no two
    cells share a key. *)
Theorem HomepageFeatures_keys_are_indices :
  forall (styles : CssModule) (items : list FeatureItem),
    let b := {| FeatureList := items |} in
    exists section,
      HomepageFeatures styles b = (Ok section, b)
      /\ map key (cells section) = map Some (seq 0 (length items))
      /\ NoDup (map key (cells section)).
Proof.
  intros styles items b.
  exists (sectionOf styles items).
  split; [apply HomepageFeatures_run|].
  rewrite cells_sectionOf, key_elements.
  split; [reflexivity | apply NoDup_map_Some_seq].
Qed.

(** C4. Rendering is deterministic: for every list of feature items, two
    renders of the feature section over that list yield the same markup,
    whatever renders came before each of them; and that outcome is markup,
    not a throw. *)
Theorem rendering_deterministic :
  forall (styles pageStyles : CssModule) (ctx : DocusaurusContext)
         (useBaseUrl : string -> string) (items : list FeatureItem)
         (earlier1 earlier2 : list Call),
    let b := {| FeatureList := items |} in
    let run := run styles pageStyles ctx useBaseUrl in
    let render := renderFeatureSection styles pageStyles ctx useBaseUrl in
    exists markup,
      fst (render (snd (run earlier1 b))) = Ok markup
      /\ fst (render (snd (run earlier2 b))) = Ok markup
      /\ fst (HomepageFeatures styles (snd (run earlier1 b)))
         = Ok (fst markup)
      /\ fst (HomepageFeatures styles (snd (run earlier2 b)))
         = Ok (fst markup).
Proof.
  intros styles pageStyles ctx useBaseUrl items earlier1 earlier2 b run
         render.
  exists (sectionOf styles items, map (cellOf styles) items).
  subst run render.
  rewrite !run_bindings, renderFeatureSection_run, HomepageFeatures_run.
  repeat split.
Qed.

(** C5. [HomepageFeatures] and [Feature] are total and pure: whatever list
    the bindings hold and whatever the props, each returns markup (it does
    not throw) and leaves the bindings as they were. *)
Theorem rendering_total_and_pure :
  forall (styles : CssModule) (b : Bindings),
    (exists section, HomepageFeatures styles b = (Ok section, b))
    /\ (forall props : FeatureItem,
          exists cell, Feature styles props b = (Ok cell, b)).
Proof.
  intros styles b. split.
  - eexists. apply HomepageFeatures_run.
  - intro props. eexists. apply Feature_run.
Qed.

Lemma FeatureList_literal_throws (require : string -> Outcome SvgModule)
      (request : string) (e : Error) :
  In request icon_requests -> require request = Throw e ->
  exists e', FeatureList_literal require = Throw e'.
Proof.
  intros Hin Hthrow. unfold FeatureList_literal.
  simpl in Hin. destruct Hin as [<- | [<- | [<- | []]]].
  - rewrite Hthrow. simpl. eauto.
  - destruct (require "@site/static/img/undraw_road-to-knowledge_f9zn.svg")
      as [m1|e1]; simpl; [|eauto].
    rewrite Hthrow. simpl. eauto.
  - destruct (require "@site/static/img/undraw_road-to-knowledge_f9zn.svg")
      as [m1|e1]; simpl; [|eauto].
    destruct (require "@site/static/img/undraw_scientist_5td0.svg")
      as [m2|e2]; simpl; [|eauto].
    rewrite Hthrow. simpl. eauto.
Qed.

(** C6. A missing icon fails the build: if [require] throws for one of the
    icon files of the module, evaluating the module throws, so the build
    ends in that throw and no markup is produced. *)
Theorem missing_icon_fails_the_build :
  forall (require : string -> Outcome SvgModule)
         (styles pageStyles : CssModule) (ctx : DocusaurusContext)
         (useBaseUrl : string -> string) (request : string) (e : Error),
    In request icon_requests ->
    require request = Throw e ->
    exists e',
      evaluate_module require = Throw e'
      /\ build require styles pageStyles ctx useBaseUrl = Throw e'.
Proof.
  intros require styles pageStyles ctx useBaseUrl request e Hin Hthrow.
  destruct (FeatureList_literal_throws require request e Hin Hthrow)
    as [e' He'].
  exists e'. unfold build, evaluate_module. rewrite He'. split; reflexivity.
Qed.

(** When the build produces markup, every icon file resolved, and the icon
    of each item is in the cell rendered for it. *)
Lemma build_ok_shows_every_icon (require : string -> Outcome SvgModule)
      (styles pageStyles : CssModule) (ctx : DocusaurusContext)
      (useBaseUrl : string -> string) (section : ReactNode)
      (rendered : list ReactNode) :
  build require styles pageStyles ctx useBaseUrl = Ok (section, rendered) ->
  exists icons,
    map (fun request => Ok {| default := icons request |}) icon_requests
    = map require icon_requests
    /\ Forall2 (fun request cell =>
                  In (SvgElement (icons request)
                        [("className", classValue (styles "featureSvg"));
                         ("role", VString "img")])
                     (document_order cell))
               icon_requests rendered.
Proof.
  unfold build, evaluate_module, FeatureList_literal.
  destruct (require "@site/static/img/undraw_road-to-knowledge_f9zn.svg")
    as [[c1]|e1] eqn:E1; cbn [obind]; [|discriminate].
  destruct (require "@site/static/img/undraw_scientist_5td0.svg")
    as [[c2]|e2] eqn:E2; cbn [obind]; [|discriminate].
  destruct (require "@site/static/img/undraw_active-options_et7o.svg")
    as [[c3]|e3] eqn:E3; cbn [obind]; [|discriminate].
  rewrite renderFeatureSection_run. simpl. intro H.
  injection H as <- <-.
  exists (fun request =>
            if String.eqb request
                 "@site/static/img/undraw_road-to-knowledge_f9zn.svg"
            then c1
            else if String.eqb request
                      "@site/static/img/undraw_scientist_5td0.svg"
                 then c2 else c3).
  split.
  - simpl. now rewrite E1, E2, E3.
  - unfold icon_requests. cbn [map FeatureList].
    repeat (apply Forall2_cons;
            [rewrite document_order_cell; simpl; auto 6|]).
    apply Forall2_nil.
Qed.

(** C7. The list is fixed when the module is evaluated and never changes
    afterwards: after any sequence of renders of the site's components the
    binding [FeatureList] still holds the list of the source's array
    literal, and a render of [HomepageFeatures] then shows exactly that
    list. *)
Theorem FeatureList_never_mutated :
  forall (require : string -> Outcome SvgModule)
         (styles pageStyles : CssModule) (ctx : DocusaurusContext)
         (useBaseUrl : string -> string) (b : Bindings) (cs : list Call),
    evaluate_module require = Ok b ->
    let after := snd (run styles pageStyles ctx useBaseUrl cs b) in
    FeatureList_literal require = Ok (FeatureList after)
    /\ after = b
    /\ exists section,
         HomepageFeatures styles after = (Ok section, after)
         /\ map feature_props (cells section) = map Some (FeatureList b).
Proof.
  intros require styles pageStyles ctx useBaseUrl b cs Hev after.
  assert (Hafter : after = b) by apply run_bindings.
  rewrite Hafter. split; [|split; [reflexivity|]].
  - unfold evaluate_module in Hev.
    destruct (FeatureList_literal require) as [arr|e]; simpl in Hev;
      [|discriminate].
    injection Hev as <-. reflexivity.
  - exists (sectionOf styles (FeatureList b)).
    split; [apply HomepageFeatures_run|].
    rewrite cells_sectionOf. apply feature_props_elements.
Qed.

(** C8. The list of the source is not empty: it holds exactly three items,
    titled "Accessible by design", "Testing-driven from the ground up" and
    "Configuration that just works", in that order. *)
Theorem FeatureList_three_items :
  forall (require : string -> Outcome SvgModule) (arr : list FeatureItem),
    FeatureList_literal require = Ok arr ->
    arr <> []
    /\ length arr = 3
    /\ map Features.title arr
       = [ "Accessible by design";
           "Testing-driven from the ground up";
           "Configuration that just works" ].
Proof.
  intros require arr. unfold FeatureList_literal.
  destruct (require "@site/static/img/undraw_road-to-knowledge_f9zn.svg")
    as [m1|e1]; cbn [obind]; [|discriminate].
  destruct (require "@site/static/img/undraw_scientist_5td0.svg")
    as [m2|e2]; cbn [obind]; [|discriminate].
  destruct (require "@site/static/img/undraw_active-options_et7o.svg")
    as [m3|e3]; cbn [obind]; [|discriminate].
  intro H. injection H as <-.
  split; [discriminate | split; reflexivity].
Qed.

(* ================================================================== *)
(** ** The landing page *)

(** C10. [Home] always returns a layout whose children are the header
    element and then the [main] element, which holds the feature section;
    so the header comes before the features.  Rendering the header element
    gives the markup of [HomepageHeader]: it shows the tagline of the site
    and a link "Get started" to [/docs/intro]. *)
Theorem Home_header_before_features :
  forall (styles pageStyles : CssModule) (ctx : DocusaurusContext)
         (useBaseUrl : string -> string) (b : Bindings),
    exists page main header link,
      Home ctx b = (Ok page, b)
      /\ children page = [HomepageHeaderElement; main]
      /\ is_host "main" main = true
      /\ children main = [HomepageFeaturesElement]
      /\ precedes page HomepageHeaderElement main
      /\ precedes page HomepageHeaderElement HomepageFeaturesElement
      /\ renderElement styles pageStyles ctx useBaseUrl HomepageHeaderElement b
         = (Ok header, b)
      /\ HomepageHeader pageStyles ctx useBaseUrl b = (Ok header, b)
      /\ is_host "header" header = true
      /\ In (Text (tagline (siteConfig ctx))) (document_order header)
      /\ In link (document_order header)
      /\ link = ThemeElement Link
                  [("className",
                    VString "button button--secondary button--lg");
                   ("to", VString "/docs/intro")]
                  [Text "Get started"]
      /\ prop "to" link = VString "/docs/intro".
Proof.
  intros styles pageStyles ctx useBaseUrl b.
  do 4 eexists.
  split; [reflexivity|].
  split; [reflexivity|].
  split; [reflexivity|].
  split; [reflexivity|].
  split; [eexists [_], [], _; reflexivity|].
  split; [eexists [_], [_], _; reflexivity|].
  split; [reflexivity|].
  split; [reflexivity|].
  split; [reflexivity|].
  split; [simpl; auto 8|].
  split; [|split; reflexivity].
  simpl. auto 10.
Qed.

(* ================================================================== *)
(** ** The theorems at the site's own data *)

Lemma missing_icon_fails_the_build_witness :
  In "@site/static/img/undraw_scientist_5td0.svg" icon_requests
  /\ require_from
       [ "@site/static/img/undraw_road-to-knowledge_f9zn.svg";
         "@site/static/img/undraw_active-options_et7o.svg" ]
       "@site/static/img/undraw_scientist_5td0.svg"
     = Throw (ModuleNotFound "@site/static/img/undraw_scientist_5td0.svg")
  /\ exists e',
       evaluate_module
         (require_from
            [ "@site/static/img/undraw_road-to-knowledge_f9zn.svg";
              "@site/static/img/undraw_active-options_et7o.svg" ])
       = Throw e'
       /\ build
            (require_from
               [ "@site/static/img/undraw_road-to-knowledge_f9zn.svg";
                 "@site/static/img/undraw_active-options_et7o.svg" ])
            hashedStyles hashedStyles sampleContext baseUrl
          = Throw e'.
Proof.
  split; [simpl; auto|].
  split; [reflexivity|].
  apply (missing_icon_fails_the_build
           (require_from
              [ "@site/static/img/undraw_road-to-knowledge_f9zn.svg";
                "@site/static/img/undraw_active-options_et7o.svg" ])
           hashedStyles hashedStyles sampleContext baseUrl
           "@site/static/img/undraw_scientist_5td0.svg"
           (ModuleNotFound "@site/static/img/undraw_scientist_5td0.svg")).
  - simpl; auto.
  - reflexivity.
Defined.

Lemma FeatureList_never_mutated_witness :
  evaluate_module (require_from icon_requests) = Ok siteBindings
  /\ let after :=
       snd (run hashedStyles hashedStyles sampleContext baseUrl
              [CallHome; CallHomepageFeatures; CallHomepageHeader;
               CallHomepageFeatures]
              siteBindings) in
     FeatureList_literal (require_from icon_requests)
     = Ok (FeatureList after)
     /\ after = siteBindings
     /\ exists section,
          HomepageFeatures hashedStyles after = (Ok section, after)
          /\ map feature_props (cells section)
             = map Some (FeatureList siteBindings).
Proof.
  split; [reflexivity|].
  apply (FeatureList_never_mutated (require_from icon_requests)
           hashedStyles hashedStyles sampleContext baseUrl siteBindings
           [CallHome; CallHomepageFeatures; CallHomepageHeader;
            CallHomepageFeatures]).
  reflexivity.
Defined.

Lemma FeatureList_three_items_witness :
  FeatureList_literal (require_from icon_requests)
  = Ok (FeatureList siteBindings)
  /\ FeatureList siteBindings <> []
  /\ length (FeatureList siteBindings) = 3
  /\ map Features.title (FeatureList siteBindings)
     = [ "Accessible by design";
         "Testing-driven from the ground up";
         "Configuration that just works" ].
Proof.
  split; [reflexivity|].
  apply (FeatureList_three_items (require_from icon_requests)
           (FeatureList siteBindings)).
  reflexivity.
Defined.

(* ================================================================== *)
(** ** Further properties of the feature section *)

Lemma feature_elements_app (idx : nat) (items more : list FeatureItem) :
  feature_elements_from idx (items ++ more)
  = feature_elements_from idx items
    ++ feature_elements_from (idx + length items) more.
Proof.
  revert idx; induction items as [|props rest IH]; intro idx; simpl.
  - now rewrite Nat.add_0_r.
  - rewrite IH. now rewrite Nat.add_succ_comm.
Qed.

Lemma key_elements_shift (idx : nat) (items : list FeatureItem) :
  map key (feature_elements_from idx items)
  = map (option_map (Nat.add idx)) (map key (feature_elements_from 0 items)).
Proof.
  rewrite !key_elements, !map_map. simpl.
  rewrite <- (Nat.add_0_r idx) at 1.
  generalize 0 as start.
  induction (length items) as [|len IH]; intro start; simpl.
  - reflexivity.
  - rewrite <- IH. now rewrite Nat.add_succ_r.
Qed.

Lemma firstn_exact {A : Type} (n : nat) (l r : list A) :
  length l = n -> firstn n (l ++ r) = l.
Proof.
  intros <-. rewrite firstn_app, Nat.sub_diag, firstn_all. simpl.
  apply app_nil_r.
Qed.

Lemma skipn_exact {A : Type} (n : nat) (l r : list A) :
  length l = n -> skipn n (l ++ r) = r.
Proof.
  intros <-. rewrite skipn_app, Nat.sub_diag, skipn_all. reflexivity.
Qed.

(** X1. Appending items to the list leaves the existing cells as they
    were: the section over [items ++ more] has the elements of the section
    over [items], keys included, followed by the elements of the new items
    with the keys N, N+1, ... (N the length of [items]); and the rendered
    cells are those of [items] followed by those of [more]. *)
Theorem appending_items_keeps_existing_cells :
  forall (styles pageStyles : CssModule) (ctx : DocusaurusContext)
         (useBaseUrl : string -> string) (items more : list FeatureItem),
    let render := renderFeatureSection styles pageStyles ctx useBaseUrl in
    exists section rendered section' rendered' section_more rendered_more,
      fst (render {| FeatureList := items |}) = Ok (section, rendered)
      /\ fst (render {| FeatureList := items ++ more |})
         = Ok (section', rendered')
      /\ fst (render {| FeatureList := more |})
         = Ok (section_more, rendered_more)
      /\ firstn (length items) (cells section') = cells section
      /\ map key (skipn (length items) (cells section'))
         = map Some (seq (length items) (length more))
      /\ map feature_props (skipn (length items) (cells section'))
         = map Some more
      /\ rendered' = rendered ++ rendered_more.
Proof.
  intros styles pageStyles ctx useBaseUrl items more render.
  subst render.
  do 6 eexists.
  rewrite !renderFeatureSection_run. cbn [fst FeatureList].
  split; [reflexivity|]. split; [reflexivity|]. split; [reflexivity|].
  rewrite !cells_sectionOf, feature_elements_app. simpl.
  rewrite (firstn_exact _ _ _ (length_elements 0 items)).
  rewrite (skipn_exact _ _ _ (length_elements 0 items)).
  rewrite key_elements, feature_props_elements.
  repeat split. apply map_app.
Qed.

(** X2. Index keys follow positions, not items: when an item is put in
    front of the list, the cells of the old items keep their props but each
    of their keys grows by one. *)
Theorem prepending_an_item_shifts_every_key :
  forall (styles : CssModule) (item : FeatureItem) (items : list FeatureItem),
    exists section section',
      fst (HomepageFeatures styles {| FeatureList := items |}) = Ok section
      /\ fst (HomepageFeatures styles {| FeatureList := item :: items |})
         = Ok section'
      /\ map feature_props (tl (cells section'))
         = map feature_props (cells section)
      /\ map key (cells section')
         = Some 0 :: map (option_map S) (map key (cells section)).
Proof.
  intros styles item items.
  do 2 eexists.
  rewrite !HomepageFeatures_run. cbn [fst FeatureList].
  split; [reflexivity|]. split; [reflexivity|].
  rewrite !cells_sectionOf. simpl.
  rewrite !feature_props_elements.
  split; [reflexivity|].
  f_equal. apply (key_elements_shift 1).
Qed.

(* ================================================================== *)
(** ** Further properties of module evaluation *)

(** X4. The array literal is evaluated in source order, so when the
    module is evaluated the error is that of the first icon file that does
    not resolve: if [require] returns for the requests before one and throws
    for that one, the array literal and the evaluation of the module end in
    exactly that throw, whatever the later requests would do. *)
Theorem first_missing_icon_is_reported :
  forall (require : string -> Outcome SvgModule)
         (resolved : list string) (request : string) (later : list string)
         (e : Error),
    icon_requests = resolved ++ request :: later ->
    Forall (fun r => is_ok (require r) = true) resolved ->
    require request = Throw e ->
    FeatureList_literal require = Throw e
    /\ evaluate_module require = Throw e.
Proof.
  intros require resolved request later e Hsplit Hresolved Hthrow.
  assert (Hlit : FeatureList_literal require = Throw e).
  { unfold FeatureList_literal.
    unfold icon_requests in Hsplit.
    destruct resolved as [|r1 [|r2 [|r3 rest]]]; simpl in Hsplit.
    - injection Hsplit as <- _. now rewrite Hthrow.
    - injection Hsplit as <- <- _.
      inversion Hresolved as [|? ? H1 _]; subst.
      destruct (require "@site/static/img/undraw_road-to-knowledge_f9zn.svg");
        [|discriminate H1].
      cbn [obind]. now rewrite Hthrow.
    - injection Hsplit as <- <- <- _.
      inversion Hresolved as [|? ? H1 Htl]; subst.
      inversion Htl as [|? ? H2 _]; subst.
      destruct (require "@site/static/img/undraw_road-to-knowledge_f9zn.svg");
        [|discriminate H1].
      destruct (require "@site/static/img/undraw_scientist_5td0.svg");
        [|discriminate H2].
      cbn [obind]. now rewrite Hthrow.
    - injection Hsplit as _ _ _ Hrest.
      destruct rest; discriminate Hrest. }
  split; [exact Hlit|].
  unfold evaluate_module. now rewrite Hlit.
Qed.

(** X5. When the module evaluates, each item has the icon of its own
    request: the [Svg] of the i-th item is the [default] export of the
    module [require] returned for the i-th icon file. *)
Theorem items_carry_the_required_icons :
  forall (require : string -> Outcome SvgModule) (b : Bindings),
    evaluate_module require = Ok b ->
    map (fun props => Ok {| default := Svg props |}) (FeatureList b)
    = map require icon_requests.
Proof.
  intros require b. unfold evaluate_module, FeatureList_literal, icon_requests.
  destruct (require "@site/static/img/undraw_road-to-knowledge_f9zn.svg")
    as [[c1]|e1] eqn:E1; cbn [obind]; [|discriminate].
  destruct (require "@site/static/img/undraw_scientist_5td0.svg")
    as [[c2]|e2] eqn:E2; cbn [obind]; [|discriminate].
  destruct (require "@site/static/img/undraw_active-options_et7o.svg")
    as [[c3]|e3] eqn:E3; cbn [obind]; [|discriminate].
  intro H. injection H as <-. cbn [map FeatureList Svg].
  now rewrite E1, E2, E3.
Qed.

(* ================================================================== *)
(** ** Further properties of the stylesheets and of the page *)

(** X6. The class of the hero header never shows a missing stylesheet
    entry: it is [hero hero--primary] alone when the stylesheet has no
    [heroBanner] (or an empty one), and [hero hero--primary] followed by a
    space and the generated name otherwise. *)
Theorem header_class_skips_missing_banner :
  forall (styles : CssModule) (ctx : DocusaurusContext)
         (useBaseUrl : string -> string) (b : Bindings),
    exists header,
      HomepageHeader styles ctx useBaseUrl b = (Ok header, b)
      /\ className header
         = VString
             match styles "heroBanner" with
             | Some c =>
                 if String.eqb c "" then "hero hero--primary"
                 else ("hero hero--primary " ++ c)%string
             | None => "hero hero--primary"
             end.
Proof.
  intros styles ctx useBaseUrl b.
  eexists. split; [reflexivity|].
  unfold className, prop. cbn [lookup String.eqb Ascii.eqb Bool.eqb].
  unfold clsx. cbn [clsx_from].
  destruct (styles "heroBanner") as [c|]; [|reflexivity].
  cbn [String.eqb Ascii.eqb Bool.eqb clsx_from].
  destruct (String.eqb c ""); reflexivity.
Qed.

(** X7. The feature section reads two classes of its stylesheet,
    [features] and [featureSvg], and nothing else: two stylesheets that
    agree on these two give the same section and the same cells. *)
Theorem feature_section_reads_two_classes :
  forall (styles1 styles2 pageStyles : CssModule) (ctx : DocusaurusContext)
         (useBaseUrl : string -> string) (b : Bindings),
    styles1 "features" = styles2 "features" ->
    styles1 "featureSvg" = styles2 "featureSvg" ->
    renderFeatureSection styles1 pageStyles ctx useBaseUrl b
    = renderFeatureSection styles2 pageStyles ctx useBaseUrl b.
Proof.
  intros styles1 styles2 pageStyles ctx useBaseUrl b Hsection Hicon.
  rewrite !renderFeatureSection_run.
  unfold sectionOf. rewrite Hsection.
  do 3 f_equal. apply map_ext. intro props.
  unfold cellOf, iconBlock, iconElement. now rewrite Hicon.
Qed.

(** X8. The page shows the feature section of the current list: the
    [main] element of [Home] has one child, and rendering it gives the
    section [HomepageFeatures] returns, with one cell element per item of
    [FeatureList] in order. *)
Theorem Home_main_renders_the_feature_section :
  forall (styles pageStyles : CssModule) (ctx : DocusaurusContext)
         (useBaseUrl : string -> string) (b : Bindings),
    exists page main section,
      Home ctx b = (Ok page, b)
      /\ nth_error (children page) 1 = Some main
      /\ Array_map
           (fun e (_ : nat) =>
              renderElement styles pageStyles ctx useBaseUrl e)
           (children main) b
         = (Ok [section], b)
      /\ HomepageFeatures styles b = (Ok section, b)
      /\ map feature_props (cells section) = map Some (FeatureList b).
Proof.
  intros styles pageStyles ctx useBaseUrl b.
  exists (ThemeElement Layout
            [("title", VString (Index.title (siteConfig ctx)));
             ("description",
              VString "Build applications with proper dependency injection, clean architecture, and testing built in from the start")]
            [ HomepageHeaderElement;
              HostElement "main" [] [HomepageFeaturesElement] ]),
         (HostElement "main" [] [HomepageFeaturesElement]),
         (sectionOf styles (FeatureList b)).
  split; [reflexivity|]. split; [reflexivity|].
  split.
  - unfold Array_map. cbn [children Array_map_from renderElement call].
    rewrite (bind_run _ _ b b _ (HomepageFeatures_run styles b)).
    reflexivity.
  - split; [apply HomepageFeatures_run|].
    rewrite cells_sectionOf. apply feature_props_elements.
Qed.

(* ================================================================== *)
(** ** The further properties at the site's own data *)

Lemma first_missing_icon_is_reported_witness :
  icon_requests
  = [ "@site/static/img/undraw_road-to-knowledge_f9zn.svg" ]
    ++ "@site/static/img/undraw_scientist_5td0.svg"
       :: [ "@site/static/img/undraw_active-options_et7o.svg" ]
  /\ Forall
       (fun r =>
          is_ok
            (require_from
               [ "@site/static/img/undraw_road-to-knowledge_f9zn.svg" ] r)
          = true)
       [ "@site/static/img/undraw_road-to-knowledge_f9zn.svg" ]
  /\ require_from [ "@site/static/img/undraw_road-to-knowledge_f9zn.svg" ]
       "@site/static/img/undraw_scientist_5td0.svg"
     = Throw (ModuleNotFound "@site/static/img/undraw_scientist_5td0.svg")
  /\ FeatureList_literal
       (require_from [ "@site/static/img/undraw_road-to-knowledge_f9zn.svg" ])
     = Throw (ModuleNotFound "@site/static/img/undraw_scientist_5td0.svg")
  /\ evaluate_module
       (require_from [ "@site/static/img/undraw_road-to-knowledge_f9zn.svg" ])
     = Throw (ModuleNotFound "@site/static/img/undraw_scientist_5td0.svg").
Proof.
  split; [reflexivity|].
  split; [repeat constructor|].
  split; [reflexivity|].
  apply (first_missing_icon_is_reported
           (require_from
              [ "@site/static/img/undraw_road-to-knowledge_f9zn.svg" ])
           [ "@site/static/img/undraw_road-to-knowledge_f9zn.svg" ]
           "@site/static/img/undraw_scientist_5td0.svg"
           [ "@site/static/img/undraw_active-options_et7o.svg" ]
           (ModuleNotFound "@site/static/img/undraw_scientist_5td0.svg")).
  - reflexivity.
  - repeat constructor.
  - reflexivity.
Defined.

Lemma items_carry_the_required_icons_witness :
  evaluate_module (require_from icon_requests) = Ok siteBindings
  /\ map (fun props => Ok {| default := Svg props |})
         (FeatureList siteBindings)
     = map (require_from icon_requests) icon_requests.
Proof.
  split; [reflexivity|].
  apply (items_carry_the_required_icons (require_from icon_requests)
           siteBindings).
  reflexivity.
Defined.

Lemma feature_section_reads_two_classes_witness :
  hashedStyles "features" = sectionStyles "features"
  /\ hashedStyles "featureSvg" = sectionStyles "featureSvg"
  /\ hashedStyles "heroBanner" <> sectionStyles "heroBanner"
  /\ renderFeatureSection hashedStyles hashedStyles sampleContext baseUrl
       siteBindings
     = renderFeatureSection sectionStyles hashedStyles sampleContext baseUrl
         siteBindings.
Proof.
  split; [reflexivity|].
  split; [reflexivity|].
  split; [discriminate|].
  apply (feature_section_reads_two_classes hashedStyles sectionStyles
           hashedStyles sampleContext baseUrl siteBindings);
    reflexivity.
Defined.
